(** * Scribe: the editor facade of [src/scribe.js]

    A shallow embedding of the [Scribe] object and of [Formatter]:
    the command registry lookup, the history push gate, history restore,
    the configuration defaults and the formatting pipeline. *)

From Stdlib Require Import ZArith String Ascii List Bool Lia.
From stdpp Require Import base option list gmap strings.

Local Open Scope string_scope.
Local Open Scope Z_scope.

(** ** JavaScript strings and the two regular expressions of the file *)

Module JsString.

(** [s.replace(/pat$/, '')] for a literal, non-empty [pat]: the engine
    tries every start index from the left, and the anchor only lets the
    match succeed where the rest of the input is exactly [pat]. *)
Fixpoint remove_at_end (pat s : string) : string :=
  match s with
  | EmptyString => EmptyString
  | String c s' =>
      if String.eqb s pat then EmptyString
      else String c (remove_at_end pat s')
  end.

(** [s.replace(/pat/g, repl)] for a literal, non-empty [pat]: leftmost
    matches, not overlapping, in one pass over the input. [skip] counts
    the characters of the current match still to be consumed. *)
Fixpoint replace_all_from (pat repl : string) (skip : nat) (s : string) : string :=
  match s with
  | EmptyString => EmptyString
  | String c s' =>
      match skip with
      | S k => replace_all_from pat repl k s'
      | O =>
          if String.prefix pat s
          then repl +:+ replace_all_from pat repl (Nat.pred (String.length pat)) s'
          else String c (replace_all_from pat repl O s')
      end
  end.

Definition replace_all (pat repl s : string) : string :=
  replace_all_from pat repl O s.

(** The double quote character, to spell the marker's opening tag. *)
Definition dquote : string := String (ascii_of_nat 34) EmptyString.

End JsString.

(** ** JavaScript values, as far as the options object needs them *)

Inductive JSValue : Type :=
  | JSUndefined
  | JSNull
  | JSBool (b : bool)
  | JSString (s : string)
  | JSObject (ref : nat).

Definition truthy (v : JSValue) : bool :=
  match v with
  | JSUndefined | JSNull => false
  | JSBool b => b
  | JSString s => negb (String.eqb s "")
  | JSObject _ => true
  end.

(** [typeof v == 'undefined'] *)
Definition is_undefined (v : JSValue) : bool :=
  match v with JSUndefined => true | _ => false end.

(** Property read [o[k]] on an object given by its own properties. *)
Definition js_get (o : gmap string JSValue) (k : string) : JSValue :=
  default JSUndefined (o !! k).

(** [a || b] *)
Definition js_or (a b : JSValue) : JSValue := if truthy a then a else b.

(** lodash [defaults(object, source)]: every own property of [source], in
    order, is assigned to [object] where [object]'s property resolves to
    [undefined]; [object] itself is returned. *)
Definition defaults (object : gmap string JSValue) (source : list (string * JSValue))
  : gmap string JSValue :=
  fold_left
    (fun result kv => if is_undefined (js_get result kv.1) then <[kv.1 := kv.2]> result else result)
    source object.

(** ** The formatting pipeline *)

Record Formatter : Type := { formatters : list (string -> string) }.

(** [function Formatter() { this.formatters = []; }] *)
Definition Formatter_new : Formatter := {| formatters := [] |}.

(** [Formatter.prototype.format]: [Array.prototype.reduce] from the left,
    starting from [html]. *)
Definition format (this : Formatter) (html : string) : string :=
  let formattedHTML :=
    fold_left (fun formattedData formatter => formatter formattedData) (formatters this) html in
  formattedHTML.

(** ** The undo manager, as [scribe.js] uses it *)

Record UndoManager : Type := {
  stack : list string;
  position : Z
}.

(** [this.undoManager.stack[this.undoManager.position]]: reading an array
    outside its indices yields [undefined], here [None]. *)
Definition UndoManager_current (um : UndoManager) : option string :=
  if position um <? 0 then None else stack um !! Z.to_nat (position um).

(** Modelled from the spec: [UndoManager.prototype.push] lives in
    [./undo-manager], which is not part of the file. The entries after
    [position] are discarded, the item is appended, and [position] points
    at the appended item. *)
Definition UndoManager_push (item : string) (um : UndoManager) : UndoManager :=
  let kept := take (Z.to_nat (position um + 1)) (stack um) in
  {| stack := kept ++ [item]; position := Z.of_nat (length kept) |}.

(** Truthiness of a history entry: [undefined] and the empty string are
    falsy. *)
Definition truthy_item (item : option string) : bool :=
  match item with
  | Some s => negb (String.eqb s "")
  | None => false
  end.

(** ** Calls that leave the object: the trace *)

Inductive Effect : Type :=
  | EvSetInnerHTML (html : string)   (* this.el.innerHTML = html *)
  | EvNewSelection                   (* new this.api.Selection() *)
  | EvPlaceMarkers                   (* selection.placeMarkers() *)
  | EvRemoveMarkers                  (* selection.removeMarkers() *)
  | EvSelectMarkers                  (* selection.selectMarkers() *)
  | EvUndoPush (item : string)       (* this.undoManager.push(item) *)
  | EvTrigger (eventName : string).  (* this.trigger(eventName) *)

(** What [new this.api.Selection()] hands back. The class lives in [./api];
    its methods edit the document, seen here through [innerHTML]. *)
Record Selection : Type := {
  rangeCount : nat;
  placeMarkers : string -> string;
  removeMarkers : string -> string;
  selectMarkers : string -> string
}.

Inductive Exception : Type :=
  | TypeError.

(** The properties ECMAScript 5.1 (15.2.4) puts on [Object.prototype];
    every host has at least these. *)
Definition standard_Object_prototype (name : string) : bool :=
  bool_decide
    (name ∈ ["constructor"; "toString"; "toLocaleString"; "valueOf";
             "hasOwnProperty"; "isPrototypeOf"; "propertyIsEnumerable"]).

(** What [selection.range] offers [insertHTML]. The calls on it and on the
    wrapper element ([deleteContents], [insertNode], [appendChild] of the
    contextual fragment, [unwrap]) belong to the host document; their net
    effect replaces the contents of the range by the parsed fragment, seen
    here through [innerHTML]: fragment, then document before, to document
    after. *)
Record Range : Type := {
  replaceContents : string -> string -> string
}.

Section Facade.

(** Command objects come from [./api] and from plugins; the file only
    stores them and hands them back. *)
Context {Command : Type}.

Record Api : Type := {
  Api_Command : string -> Command;   (* new this.api.Command(commandName) *)
  Api_Selection : Selection          (* new this.api.Selection() *)
}.

Record Scribe : Type := {
  el_innerHTML : string;
  commands : gmap string Command;
  options : gmap string JSValue;
  targetWindow : JSValue;
  commandPatches : gmap string Command;
  plainTextFormatter : Formatter;
  htmlFormatter : Formatter;
  api : Api;
  undoManager : UndoManager;
  trace : list Effect
}.

(** *** Field updates *)

Definition set_el_innerHTML (h : string) (s : Scribe) : Scribe :=
  {| el_innerHTML := h; commands := commands s; options := options s;
     targetWindow := targetWindow s; commandPatches := commandPatches s;
     plainTextFormatter := plainTextFormatter s; htmlFormatter := htmlFormatter s;
     api := api s; undoManager := undoManager s; trace := trace s |}.

Definition set_commands (c : gmap string Command) (s : Scribe) : Scribe :=
  {| el_innerHTML := el_innerHTML s; commands := c; options := options s;
     targetWindow := targetWindow s; commandPatches := commandPatches s;
     plainTextFormatter := plainTextFormatter s; htmlFormatter := htmlFormatter s;
     api := api s; undoManager := undoManager s; trace := trace s |}.

Definition set_commandPatches (c : gmap string Command) (s : Scribe) : Scribe :=
  {| el_innerHTML := el_innerHTML s; commands := commands s; options := options s;
     targetWindow := targetWindow s; commandPatches := c;
     plainTextFormatter := plainTextFormatter s; htmlFormatter := htmlFormatter s;
     api := api s; undoManager := undoManager s; trace := trace s |}.

Definition set_htmlFormatter (f : Formatter) (s : Scribe) : Scribe :=
  {| el_innerHTML := el_innerHTML s; commands := commands s; options := options s;
     targetWindow := targetWindow s; commandPatches := commandPatches s;
     plainTextFormatter := plainTextFormatter s; htmlFormatter := f;
     api := api s; undoManager := undoManager s; trace := trace s |}.

Definition set_undoManager (um : UndoManager) (s : Scribe) : Scribe :=
  {| el_innerHTML := el_innerHTML s; commands := commands s; options := options s;
     targetWindow := targetWindow s; commandPatches := commandPatches s;
     plainTextFormatter := plainTextFormatter s; htmlFormatter := htmlFormatter s;
     api := api s; undoManager := um; trace := trace s |}.

Definition log (e : Effect) (s : Scribe) : Scribe :=
  {| el_innerHTML := el_innerHTML s; commands := commands s; options := options s;
     targetWindow := targetWindow s; commandPatches := commandPatches s;
     plainTextFormatter := plainTextFormatter s; htmlFormatter := htmlFormatter s;
     api := api s; undoManager := undoManager s; trace := trace s ++ [e] |}.

(** *** Methods run in a state monad over the object *)

Definition M (A : Type) : Type := Scribe -> A * Scribe.

Definition ret {A} (a : A) : M A := fun s => (a, s).

Definition bind {A B} (m : M A) (k : A -> M B) : M B :=
  fun s => let (a, s') := m s in k a s'.

Definition gets {A} (f : Scribe -> A) : M A := fun s => (f s, s).

Definition modify (f : Scribe -> Scribe) : M unit := fun s => (tt, f s).

Definition when (c : bool) (m : M unit) : M unit := if c then m else ret tt.

(** [a || b] and [a && b] on conditions: the right operand runs only when
    the left one does not decide. *)
Definition orM (a b : M bool) : M bool :=
  bind a (fun x => if x then ret true else b).

Definition andM (a b : M bool) : M bool :=
  bind a (fun x => if x then b else ret false).

Local Notation "x <- m ;; k" := (bind m (fun x => k))
  (at level 100, m at next level, right associativity).
Local Notation "m ;;; k" := (bind m (fun _ => k))
  (at level 100, right associativity).

(** *** The constructor, up to the managers *)

(** [function Scribe(el, options)], lines 32 to 49. [el] is the element's
    [innerHTML]; [options] is [None] when the caller passes nothing (or
    [undefined]). [defaults] fills and returns the very object passed in,
    so [options.targetWindow] reads the filled object, and throws when
    there is none. [window], the [Api] instance and the fresh undo manager
    are built by code outside the file and are taken as given. The
    listeners and core plugins installed afterwards run code of other
    modules. *)
Definition Scribe_new (el : string) (options : option (gmap string JSValue))
    (window : JSValue) (api0 : Api) (undo0 : UndoManager)
  : Exception + Scribe :=
  let opts :=
    defaults (default ∅ options)
      [("allowBlockElements", JSBool true); ("debug", JSBool false)] in
  match options with
  | None => inl TypeError   (* options.targetWindow on undefined *)
  | Some _ =>
      inr {| el_innerHTML := el;
             commands := ∅;
             options := opts;
             targetWindow := js_or (js_get opts "targetWindow") window;
             commandPatches := ∅;
             plainTextFormatter := Formatter_new;
             htmlFormatter := Formatter_new;
             api := api0;
             undoManager := undo0;
             trace := [] |}
  end.

(** [Scribe.prototype.use] *)
Definition use (configurePlugin : Scribe -> Scribe) (this : Scribe) : Scribe :=
  configurePlugin this.

(** [Scribe.prototype.setHTML] *)
Definition setHTML (html : string) : M unit :=
  modify (fun s => log (EvSetInnerHTML html) (set_el_innerHTML html s)).

(** [Scribe.prototype.getHTML] *)
Definition getHTML : M string := gets el_innerHTML.

(** [Scribe.prototype.getContent] *)
Definition getContent : M string :=
  html <- getHTML ;; ret (JsString.remove_at_end "<br>" html).

(** [this.trigger(eventName)], inherited from the event emitter. *)
Definition trigger (eventName : string) : M unit :=
  modify (log (EvTrigger eventName)).

(** [new this.api.Selection()] *)
Definition new_Selection : M Selection :=
  fun s => (Api_Selection (api s), log EvNewSelection s).

Definition Selection_placeMarkers (sel : Selection) : M unit :=
  modify (fun s => log EvPlaceMarkers (set_el_innerHTML (placeMarkers sel (el_innerHTML s)) s)).

Definition Selection_removeMarkers (sel : Selection) : M unit :=
  modify (fun s => log EvRemoveMarkers (set_el_innerHTML (removeMarkers sel (el_innerHTML s)) s)).

Definition Selection_selectMarkers (sel : Selection) : M unit :=
  modify (fun s => log EvSelectMarkers (set_el_innerHTML (selectMarkers sel (el_innerHTML s)) s)).

(** [this.undoManager.push(item)] *)
Definition undoManager_push (item : string) : M unit :=
  modify (fun s => log (EvUndoPush item) (set_undoManager (UndoManager_push item (undoManager s)) s)).

(** The opening tag of a selection marker, [<em class=Qscribe-markerQ>]
    with Q the double quote. *)
Definition marker_open : string :=
  "<em class=" +:+ JsString.dquote +:+ "scribe-marker" +:+ JsString.dquote +:+ ">".

(** The two chained [replace] calls of [pushHistory]. *)
Definition strip_markers (item : string) : string :=
  JsString.replace_all "</em>" "" (JsString.replace_all marker_open "" item).

(** [Scribe.prototype.pushHistory]. The entry read from the stack is
    [None] for [undefined]; [previousUndoItem && ...] keeps a falsy entry
    as it is; the condition evaluates [getContent()] only when the entry
    is truthy. *)
Definition pushHistory : M bool :=
  previousUndoItem <- gets (fun s => UndoManager_current (undoManager s)) ;;
  let previousContent :=
    if truthy_item previousUndoItem then strip_markers <$> previousUndoItem
    else previousUndoItem in
  changed <-
    orM (ret (negb (truthy_item previousUndoItem)))
        (andM (ret (truthy_item previousUndoItem))
              (content <- getContent ;;
               ret (negb (bool_decide (Some content = previousContent))))) ;;
  if changed then
    selection <- new_Selection ;;
    when (negb (rangeCount selection =? 0)%nat) (Selection_placeMarkers selection) ;;;
    html <- getHTML ;;
    when (negb (rangeCount selection =? 0)%nat) (Selection_removeMarkers selection) ;;;
    undoManager_push html ;;;
    ret true
  else
    ret false.

(** [Object.prototype] of the host, from which the two object literals
    [this.commands] and [this.commandPatches] inherit: [inherits name]
    tells whether it has a property called [name]. Its members are
    functions, and the prototype object itself under [__proto__]: all
    truthy. *)
Variable inherits : string -> bool.

(** What an indexed read of one of the two objects yields when it is not
    [undefined]: a stored command object, or the member of
    [Object.prototype] of that name. *)
Inductive Property : Type :=
  | CommandObject (c : Command)
  | PrototypeMember (name : string).

(** [o[name]] on an object literal with the own properties [o]: the own
    property when there is one, else the inherited one, else [undefined]. *)
Definition js_index (o : gmap string Command) (name : string) : option Property :=
  match o !! name with
  | Some c => Some (CommandObject c)
  | None => if inherits name then Some (PrototypeMember name) else None
  end.

(** [Scribe.prototype.getCommand]. Command objects and prototype members
    are truthy, so each [||] falls through exactly on [undefined]. *)
Definition getCommand (commandName : string) (this : Scribe) : Property :=
  match js_index (commands this) commandName with
  | Some found => found
  | None =>
      match js_index (commandPatches this) commandName with
      | Some found => found
      | None => CommandObject (Api_Command (api this) commandName)
      end
  end.

(** [Scribe.prototype.restoreFromHistory] *)
Definition restoreFromHistory (historyItem : string) : M unit :=
  setHTML historyItem ;;;
  selection <- new_Selection ;;
  Selection_selectMarkers selection ;;;
  trigger "content-changed".

(** [Scribe.prototype.allowsBlockElements] *)
Definition allowsBlockElements (this : Scribe) : JSValue :=
  js_get (options this) "allowBlockElements".

(** [Scribe.prototype.isDebugModeEnabled] *)
Definition isDebugModeEnabled (this : Scribe) : JSValue :=
  js_get (options this) "debug".

(** [Scribe.prototype.setContent] *)
Definition setContent (content : string) : M unit :=
  allows <- gets allowsBlockElements ;;
  let content := if negb (truthy allows) then content +:+ "<br>" else content in
  fmt <- gets htmlFormatter ;;
  setHTML (format fmt content) ;;;
  trigger "content-changed".

(** [Scribe.prototype.insertHTML]. [range] is what [selection.range]
    holds, [None] for [undefined]: the first call on it then throws, before
    anything is formatted or inserted. *)
Definition insertHTML (range : option Range) (html : string)
  : Scribe -> (Exception + unit) * Scribe :=
  fun s =>
    let (selection, s1) := new_Selection s in
    match range with
    | None => (inl TypeError, s1)
    | Some range =>
        let html := format (htmlFormatter s1) html in
        (inr tt, set_el_innerHTML (replaceContents range html (el_innerHTML s1)) s1)
    end.

(** [Scribe.prototype.insertPlainText] *)
Definition insertPlainText (range : option Range) (plainText : string)
  : Scribe -> (Exception + unit) * Scribe :=
  fun s => insertHTML range ("<p>" +:+ format (plainTextFormatter s) plainText +:+ "</p>") s.

End Facade.

Arguments Api : clear implicits.
Arguments Scribe : clear implicits.
Arguments M : clear implicits.
Arguments Property : clear implicits.
Arguments PrototypeMember {Command} name.

(** ** Reference readings used by the statements *)

(** The nested application [fn(...f1(input)...)], read from its outermost
    stage: the argument lists the stages last-registered first. *)
Fixpoint nested_application (outermost_first : list (string -> string)) (input : string)
  : string :=
  match outermost_first with
  | [] => input
  | fn :: inner => fn (nested_application inner input)
  end.

(** Modelled from the spec: registration of a command by a plugin. The
    plugins live in [./plugins], outside the file; handed to [use], a
    command plugin assigns [scribe.commands[name] = command], so the last
    registration under a name wins. The assignment makes an own property;
    under a name that [Object.prototype] answers with an accessor
    ([__proto__]) it would not, and the statements below leave inherited
    names out. *)
Definition register_command {Command} (name : string) (c : Command)
  : Scribe Command -> Scribe Command :=
  fun scribe => set_commands (<[name := c]> (commands scribe)) scribe.

(** Modelled from the spec: registration of a command patch, the
    assignment [scribe.commandPatches[name] = patch] of a patch plugin. *)
Definition register_patch {Command} (name : string) (p : Command)
  : Scribe Command -> Scribe Command :=
  fun scribe => set_commandPatches (<[name := p]> (commandPatches scribe)) scribe.

(** A plugin that adds a stage to the HTML pipeline:
    [scribe.htmlFormatter.formatters.push(stage)]. *)
Definition register_html_stage {Command} (stage : string -> string)
  : Scribe Command -> Scribe Command :=
  fun scribe =>
    set_htmlFormatter {| formatters := formatters (htmlFormatter scribe) ++ [stage] |} scribe.

(** The HTML that [pushHistory] hands to the undo manager: [innerHTML] as
    read between [placeMarkers] and [removeMarkers]. *)
Definition snapshot_html {Command} (s : Scribe Command) : string :=
  let selection := Api_Selection (api s) in
  if (rangeCount selection =? 0)%nat then el_innerHTML s
  else placeMarkers selection (el_innerHTML s).

(** The items handed to [undoManager.push], in order. *)
Definition pushed_items (t : list Effect) : list string :=
  omap (fun e => match e with EvUndoPush item => Some item | _ => None end) t.

(** The event names handed to [trigger], in order. *)
Definition triggered (t : list Effect) : list string :=
  omap (fun e => match e with EvTrigger name => Some name | _ => None end) t.

(** ** Occurrences of a literal in a string *)

(** [pat] matches at some index of [s]. *)
Fixpoint occursb (pat s : string) : bool :=
  String.prefix pat s
  || match s with
     | EmptyString => false
     | String _ s' => occursb pat s'
     end.

(** [s] ends with [pat]. *)
Fixpoint ends_with (pat s : string) : bool :=
  String.eqb s pat
  || match s with
     | EmptyString => false
     | String _ s' => ends_with pat s'
     end.

(** The character [c] occurs in [s]. *)
Fixpoint has_char (c : ascii) (s : string) : bool :=
  match s with
  | EmptyString => false
  | String a s' => Ascii.eqb a c || has_char c s'
  end.

(** A whole marker element as it is serialised in [innerHTML]. *)
Definition marker : string := marker_open +:+ "</em>".

(** ** Document nodes, for the caret fix *)

#[warnings="-register-all"]
Inductive Node : Type :=
  | mkNode (name : string) (children : list Node).

Definition nodeName (n : Node) : string :=
  match n with mkNode name _ => name end.

Definition childNodes (n : Node) : list Node :=
  match n with mkNode _ children => children end.

(** [getFirstDeepestChild] inside [placeCaretOnFocus]. The tree walker is
    rooted at [node] and shows every node, so [firstChild()] moves to the
    first child of [node] when there is one and answers null otherwise. *)
Fixpoint getFirstDeepestChild (node : Node) : Node :=
  match node with
  | mkNode _ [] => node
  | mkNode _ (child :: _) =>
      if String.eqb (nodeName child) "BR" then node
      else getFirstDeepestChild child
  end.

(** [r] is reached from [n] by going to the first child, any number of
    times, never into a [BR]. *)
Inductive first_child_path : Node -> Node -> Prop :=
  | path_here n : first_child_path n n
  | path_down name child rest r :
      nodeName child <> "BR" ->
      first_child_path child r ->
      first_child_path (mkNode name (child :: rest)) r.

(** The walk cannot go on from [n]: no child, or a [BR] first. *)
Definition walk_stops (n : Node) : bool :=
  match childNodes n with
  | [] => true
  | child :: _ => String.eqb (nodeName child) "BR"
  end.

(** ** Concrete editors *)

Module Examples.

(** Command objects are told apart by a tag. *)
Definition api0 : Api string :=
  {| Api_Command := fun commandName => "native:" +:+ commandName;
     Api_Selection := {| rangeCount := 0; placeMarkers := id;
                         removeMarkers := id; selectMarkers := id |} |}.

(** An editor holding [html], with the given history. *)
Definition editor (html : string) (um : UndoManager) : Scribe string :=
  {| el_innerHTML := html; commands := ∅;
     options := {[ "allowBlockElements" := JSBool true; "debug" := JSBool false ]};
     targetWindow := JSObject 0; commandPatches := ∅;
     plainTextFormatter := Formatter_new; htmlFormatter := Formatter_new;
     api := api0; undoManager := um; trace := [] |}.

Definition no_history : UndoManager := {| stack := []; position := -1 |}.

Definition emphasised : string := "<p><em>a</em></p>".

(** Both a plugin command and a patch are registered for [bold]. *)
Definition both_registered : Scribe string :=
  use (register_patch "bold" "patch:bold")
    (use (register_command "bold" "plugin:bold") (editor "" no_history)).

(** An editor whose only history entry is its present content. *)
Definition unchanged_emphasis : Scribe string :=
  editor emphasised {| stack := [emphasised]; position := 0 |}.

(** The same content before anything was pushed. *)
Definition fresh_emphasis : Scribe string := editor emphasised no_history.

(** An options object with an option the editor does not know and an
    ill-typed value for one it does. *)
Definition unknown_option : gmap string JSValue :=
  {[ "colour" := JSString "red"; "debug" := JSString "maybe" ]}.

End Examples.

Module MoreExamples.


(** A paragraph whose snapshot carries a caret marker after the letter. *)
Definition caret_snapshot : Scribe string :=
  Examples.editor "<p>ab</p>"
    {| stack := ["<p>a" +:+ marker +:+ "b</p>"]; position := 0 |}.

(** A paragraph that is its own, unmarked, history entry. *)
Definition unchanged_paragraph : Scribe string :=
  Examples.editor "<p>ab</p>" {| stack := ["<p>ab</p>"]; position := 0 |}.

(** An editor whose current history entry is the empty string. *)
Definition empty_entry : Scribe string :=
  Examples.editor "<p>a</p>" {| stack := [""]; position := 0 |}.

(** A selection collapsed to a caret after the fourth character: the
    marker element goes in there and is taken out wherever it stands. *)
Definition caret_selection : Selection :=
  {| rangeCount := 1;
     placeMarkers := fun html =>
       String.substring 0 4 html +:+ marker
       +:+ String.substring 4 (String.length html - 4) html;
     removeMarkers := JsString.replace_all marker "";
     selectMarkers := JsString.replace_all marker "" |}.

(** A fresh editor holding a paragraph, with that caret. *)
Definition caret_editor : Scribe string :=
  {| el_innerHTML := "<p>ab</p>"; commands := ∅;
     options := {[ "allowBlockElements" := JSBool true; "debug" := JSBool false ]};
     targetWindow := JSObject 0; commandPatches := ∅;
     plainTextFormatter := Formatter_new; htmlFormatter := Formatter_new;
     api := {| Api_Command := Api_Command Examples.api0;
               Api_Selection := caret_selection |};
     undoManager := Examples.no_history; trace := [] |}.

(** [<div><p><b>x</b><br></p><p></p></div>] as a tree. *)
Definition nested_nodes : Node :=
  mkNode "DIV"
    [mkNode "P" [mkNode "B" [mkNode "#text" []]; mkNode "BR" []]; mkNode "P" []].

End MoreExamples.

(** ** The formatting pipeline *)

Lemma format_snoc (fs : list (string -> string)) (f : string -> string) (input : string) :
  format {| formatters := fs ++ [f] |} input = f (format {| formatters := fs |} input).
Proof. unfold format; simpl. apply fold_left_app. Qed.

(** C6: [format] applies the stages left to right: the first stage gets
    the raw input, every later stage the output of the one before it, and
    the result for stages f1, ..., fn is the string fn(...f1(input)...). *)
Theorem format_applies_stages_in_order (fs : list (string -> string)) (input : string) :
  format {| formatters := fs |} input = nested_application (rev fs) input
  /\ format {| formatters := [] |} input = input
  /\ (forall f1 rest, fs = f1 :: rest ->
        format {| formatters := fs |} input = format {| formatters := rest |} (f1 input))
  /\ (forall fn, format {| formatters := fs ++ [fn] |} input
                 = fn (format {| formatters := fs |} input)).
Proof.
  split; [| split; [reflexivity | split]].
  - induction fs as [| f fs IH] using rev_ind.
    + reflexivity.
    + rewrite format_snoc, rev_app_distr. simpl. now rewrite IH.
  - intros f1 rest ->. reflexivity.
  - intros fn. apply format_snoc.
Qed.

Lemma use_register_html_stage {Command} (s : Scribe Command) stage input :
  format (htmlFormatter (use (register_html_stage stage) s)) input
  = stage (format (htmlFormatter s) input).
Proof. destruct s as [? ? ? ? ? ? [fs] ? ? ?]. simpl. apply format_snoc. Qed.

(** ** The command registry *)

Lemma getCommand_plugin {Command} inherits (s : Scribe Command) name c :
  commands s !! name = Some c -> getCommand inherits name s = CommandObject c.
Proof. unfold getCommand, js_index. now intros ->. Qed.

Lemma getCommand_patch {Command} inherits (s : Scribe Command) name p :
  inherits name = false ->
  commands s !! name = None -> commandPatches s !! name = Some p ->
  getCommand inherits name s = CommandObject p.
Proof. unfold getCommand, js_index. now intros -> -> ->. Qed.

Lemma getCommand_default {Command} inherits (s : Scribe Command) name :
  inherits name = false ->
  commands s !! name = None -> commandPatches s !! name = None ->
  getCommand inherits name s = CommandObject (Api_Command (api s) name).
Proof. unfold getCommand, js_index. now intros -> -> ->. Qed.

(** Under a name that [Object.prototype] has, with no plugin command
    stored, the read of [this.commands] already yields the inherited
    member; patches and the default are never reached. *)
Lemma getCommand_inherited {Command} inherits (s : Scribe Command) name :
  inherits name = true -> commands s !! name = None ->
  getCommand inherits name s = PrototypeMember name.
Proof. unfold getCommand, js_index. now intros -> ->. Qed.

(** C1, as the claim states it, fails: with a plugin command and a patch
    both registered for bold, [getCommand] returns the plugin command. *)
Lemma getCommand_plugin_hides_patch :
  commands Examples.both_registered !! "bold" = Some "plugin:bold"
  /\ commandPatches Examples.both_registered !! "bold" = Some "patch:bold"
  /\ getCommand standard_Object_prototype "bold" Examples.both_registered
     = CommandObject "plugin:bold"
  /\ getCommand standard_Object_prototype "bold" Examples.both_registered
     <> CommandObject "patch:bold".
Proof. vm_compute. repeat split; discriminate. Qed.

(** C1, amended: for a name that is not inherited from [Object.prototype]
    the precedence is plugin, then patch, then default. With both
    registered [getCommand] returns the plugin command, in whichever order
    they were registered; with only a patch it returns the patch; with
    neither it returns the native default. *)
Theorem getCommand_precedence {Command} (inherits : string -> bool)
    (s : Scribe Command) (name : string) :
  inherits name = false ->
  (forall c, commands s !! name = Some c -> getCommand inherits name s = CommandObject c)
  /\ (forall p, commands s !! name = None -> commandPatches s !! name = Some p ->
        getCommand inherits name s = CommandObject p)
  /\ (commands s !! name = None -> commandPatches s !! name = None ->
        getCommand inherits name s = CommandObject (Api_Command (api s) name))
  /\ (forall c p,
        getCommand inherits name
          (use (register_patch name p) (use (register_command name c) s))
        = CommandObject c
        /\ getCommand inherits name
             (use (register_command name c) (use (register_patch name p) s))
           = CommandObject c).
Proof.
  intros Hown. repeat split.
  - intros c. apply getCommand_plugin.
  - intros p. now apply getCommand_patch.
  - now apply getCommand_default.
  - apply getCommand_plugin. simpl. apply lookup_insert_eq.
  - apply getCommand_plugin. simpl. apply lookup_insert_eq.
Qed.

Lemma getCommand_precedence_witness :
  standard_Object_prototype "bold" = false
  /\ getCommand standard_Object_prototype "bold"
       (use (register_command "bold" "plugin:bold")
          (use (register_patch "bold" "patch:bold")
             (Examples.editor "" Examples.no_history)))
     = CommandObject "plugin:bold".
Proof.
  split; [reflexivity |].
  apply (getCommand_precedence standard_Object_prototype
           (Examples.editor "" Examples.no_history) "bold" eq_refl).
Defined.

(** C4 at its failing input: nothing is registered under toString at any
    tier, yet [getCommand] does not return the default command: the read
    of [this.commands] finds the function inherited from
    [Object.prototype] and returns it. *)
Theorem getCommand_inherited_name_not_default :
  commands (Examples.editor "" Examples.no_history) !! "toString" = None
  /\ commandPatches (Examples.editor "" Examples.no_history) !! "toString" = None
  /\ getCommand standard_Object_prototype "toString" (Examples.editor "" Examples.no_history)
     = PrototypeMember "toString"
  /\ getCommand standard_Object_prototype "toString" (Examples.editor "" Examples.no_history)
     <> CommandObject (Api_Command (api (Examples.editor "" Examples.no_history)) "toString").
Proof. vm_compute. repeat split; discriminate. Qed.

(** ** Configuration *)

Lemma is_undefined_true (v : JSValue) : is_undefined v = true -> v = JSUndefined.
Proof. now destruct v. Qed.

Lemma defaults_cons (object : gmap string JSValue) k v source :
  defaults object ((k, v) :: source)
  = defaults (if is_undefined (js_get object k) then <[k := v]> object else object) source.
Proof. reflexivity. Qed.

Lemma defaults_keeps_defined (source : list (string * JSValue)) :
  forall (object : gmap string JSValue) k v,
    object !! k = Some v -> v <> JSUndefined -> defaults object source !! k = Some v.
Proof.
  induction source as [| [k' v'] source IH]; intros object k v Hk Hv; [exact Hk |].
  rewrite defaults_cons. apply IH; [| exact Hv].
  destruct (is_undefined (js_get object k')) eqn:Hu; [| exact Hk].
  destruct (decide (k' = k)) as [-> | Hne].
  - unfold js_get in Hu. rewrite Hk in Hu. destruct v; try discriminate Hu. now destruct Hv.
  - now rewrite lookup_insert_ne.
Qed.

Lemma defaults_other_keys (source : list (string * JSValue)) :
  forall (object : gmap string JSValue) k,
    k ∉ source.*1 -> defaults object source !! k = object !! k.
Proof.
  induction source as [| [k' v'] source IH]; intros object k Hk; [reflexivity |].
  rewrite defaults_cons. simpl in Hk.
  apply not_elem_of_cons in Hk as [Hne Hk].
  rewrite IH by exact Hk.
  destruct (is_undefined (js_get object k')); [| reflexivity].
  now rewrite lookup_insert_ne.
Qed.

Lemma defaults_fills_undefined (source : list (string * JSValue)) :
  forall (object : gmap string JSValue) k v,
    NoDup source.*1 -> (k, v) ∈ source -> v <> JSUndefined ->
    js_get object k = JSUndefined ->
    js_get (defaults object source) k = v.
Proof.
  induction source as [| [k' v'] source IH]; intros object k v Hnd Hin Hv Hu.
  - now apply elem_of_nil in Hin.
  - simpl in Hnd. apply NoDup_cons in Hnd as [Hfresh Hnd].
    rewrite defaults_cons.
    apply elem_of_cons in Hin as [Heq | Hin].
    + injection Heq as <- <-. rewrite Hu. simpl.
      unfold js_get. erewrite defaults_keeps_defined; [reflexivity | | exact Hv].
      apply lookup_insert_eq.
    + assert (k <> k') as Hne.
      { intros ->. apply Hfresh. apply list_elem_of_fmap. now exists (k', v). }
      apply IH; try assumption.
      destruct (is_undefined (js_get object k')); [| exact Hu].
      unfold js_get in *. now rewrite lookup_insert_ne.
Qed.

(** With an options object the constructor's configuration completes, and
    the two recognised options read their supplied value or else their
    default. *)
Lemma Scribe_new_with_options {Command} el (o : gmap string JSValue) window
    (api0 : Api Command) undo0 :
  exists s, Scribe_new el (Some o) window api0 undo0 = inr s
    /\ allowsBlockElements s
       = (if is_undefined (js_get o "allowBlockElements") then JSBool true
          else js_get o "allowBlockElements")
    /\ isDebugModeEnabled s
       = (if is_undefined (js_get o "debug") then JSBool false else js_get o "debug").
Proof.
  eexists. split; [reflexivity |]. unfold allowsBlockElements, isDebugModeEnabled.
  cbn [options default].
  assert (NoDup ["allowBlockElements"; "debug"]) as Hnd.
  { apply NoDup_cons. split; [| apply NoDup_singleton].
    intros Hin. apply list_elem_of_singleton in Hin. discriminate Hin. }
  split.
  - destruct (is_undefined (js_get o "allowBlockElements")) eqn:Hu.
    + apply defaults_fills_undefined; [exact Hnd | set_solver | discriminate |].
      now apply is_undefined_true.
    + unfold js_get in *. destruct (o !! "allowBlockElements") as [v |] eqn:Hv; [| discriminate].
      erewrite defaults_keeps_defined; [reflexivity | exact Hv |].
      intros ->. discriminate.
  - destruct (is_undefined (js_get o "debug")) eqn:Hu.
    + apply defaults_fills_undefined; [exact Hnd | set_solver | discriminate |].
      now apply is_undefined_true.
    + unfold js_get in *. destruct (o !! "debug") as [v |] eqn:Hv; [| discriminate].
      erewrite defaults_keeps_defined; [reflexivity | exact Hv |].
      intros ->. discriminate.
Qed.

(** C5, as the claim states it, fails: an options object with an unknown
    option and an ill-typed [debug] is accepted; construction returns the
    editor and the configuration holds both values as they were given. *)
Lemma Scribe_new_accepts_unknown_option :
  exists s,
    Scribe_new "" (Some Examples.unknown_option) (JSObject 0) Examples.api0 Examples.no_history
      = inr s
    /\ options s !! "colour" = Some (JSString "red")
    /\ isDebugModeEnabled s = JSString "maybe".
Proof. eexists. split; [reflexivity |]. split; vm_compute; reflexivity. Qed.

(** C5, amended: the constructor validates nothing. For every options
    object its configuration steps complete without raising, every option
    supplied with a defined value is kept as given, and every option other
    than the two with defaults reads as in the object passed in. *)
Theorem Scribe_new_validates_nothing {Command} (el : string) (o : gmap string JSValue)
    (window : JSValue) (api0 : Api Command) (undo0 : UndoManager) :
  exists s, Scribe_new el (Some o) window api0 undo0 = inr s
    /\ (forall k v, o !! k = Some v -> v <> JSUndefined -> options s !! k = Some v)
    /\ (forall k, k <> "allowBlockElements" -> k <> "debug" -> options s !! k = o !! k).
Proof.
  eexists. split; [reflexivity |]. cbn [options default]. split.
  - intros k v. apply defaults_keeps_defined.
  - intros k H1 H2. apply defaults_other_keys. simpl.
    intros Hin. apply elem_of_cons in Hin as [-> | Hin]; [now apply H1 |].
    apply list_elem_of_singleton in Hin. now apply H2.
Qed.

(** C8 at its failing input: constructed with no options object, the
    constructor raises a [TypeError] when it reads [options.targetWindow],
    so no configuration results. *)
Theorem Scribe_new_without_options_throws {Command} (el : string) (window : JSValue)
    (api0 : Api Command) (undo0 : UndoManager) :
  Scribe_new el None window api0 undo0 = inl TypeError.
Proof. reflexivity. Qed.

(** ** The history push gate *)

Lemma remove_at_end_spec (pat h : string) :
  pat <> "" ->
  (exists p, h = p +:+ pat /\ JsString.remove_at_end pat h = p)
  \/ ((forall p, h <> p +:+ pat) /\ JsString.remove_at_end pat h = h).
Proof.
  intros Hpat. induction h as [| c h IH].
  - right. split; [| reflexivity].
    intros [| c p] Heq; simpl in Heq; [now apply Hpat | discriminate].
  - change (JsString.remove_at_end pat (String c h))
      with (if String.eqb (String c h) pat then ""
            else String c (JsString.remove_at_end pat h)).
    destruct (String.eqb (String c h) pat) eqn:Heqb.
    + apply String.eqb_eq in Heqb. left. exists "". split; [exact Heqb | reflexivity].
    + apply String.eqb_neq in Heqb.
      destruct IH as [[p [-> Hp]] | [Hno Hid]].
      * left. exists (String c p). split; [reflexivity | now rewrite Hp].
      * right. split; [| now rewrite Hid].
        intros [| c' p] Heq; simpl in Heq; [now apply Heqb |].
        injection Heq as _ Heq. now apply (Hno p).
Qed.

Lemma UndoManager_current_push (item : string) (um : UndoManager) :
  UndoManager_current (UndoManager_push item um) = Some item.
Proof.
  unfold UndoManager_current, UndoManager_push. cbn [position stack].
  destruct (Z.ltb_spec (Z.of_nat (length (take (Z.to_nat (position um + 1)) (stack um)))) 0);
    [lia |].
  rewrite Nat2Z.id. apply list_lookup_middle. reflexivity.
Qed.

(** The redo branch is discarded: after an undo to position 0 of a
    two-entry stack, a push leaves the first entry and the new one. *)
Example UndoManager_push_discards_redo_branch :
  UndoManager_push "<p>ac</p>" {| stack := ["<p>a</p>"; "<p>ab</p>"]; position := 0 |}
  = {| stack := ["<p>a</p>"; "<p>ac</p>"]; position := 1 |}.
Proof. reflexivity. Qed.

Lemma pushed_items_app (t1 t2 : list Effect) :
  pushed_items (t1 ++ t2) = (pushed_items t1 ++ pushed_items t2)%list.
Proof. apply omap_app. Qed.

(** Runs the pushing branch of [pushHistory], by cases on whether the
    selection has a range. *)
Ltac push_branch :=
  unfold new_Selection, bind, when, ret, Selection_placeMarkers,
    Selection_removeMarkers, undoManager_push, modify;
  simpl;
  match goal with
  | |- context [(rangeCount ?sel =? 0)%nat] => destruct (rangeCount sel =? 0)%nat
  end;
  simpl.

(** Splits [pushHistory] by the entry at the current position: none, the
    empty string, or a non-empty string that the content equals or not once
    stripped. *)
Ltac gate_cases :=
  cbv beta iota zeta delta
    [pushHistory orM andM bind gets getContent getHTML ret fst snd];
  match goal with
  | |- context [UndoManager_current ?um] =>
      let item := fresh "item" in
      destruct (UndoManager_current um) as [item |];
      cbn [truthy_item negb];
      [ destruct (String.eqb item ""); cbn [negb];
        [| case_bool_decide; cbn [negb] ] | ]
  end.

(** [pushHistory] answers false exactly when the entry at the current
    position is a non-empty string and [getContent()] equals that entry
    with the marker opening tags and every [</em>] removed. *)
Lemma pushHistory_false_iff {Command} (s : Scribe Command) :
  (pushHistory s).1 = false
  <-> exists item, UndoManager_current (undoManager s) = Some item
        /\ item <> ""
        /\ (getContent s).1 = strip_markers item.
Proof.
  cbv beta iota zeta delta [pushHistory orM andM bind gets getContent getHTML ret fst snd].
  destruct (UndoManager_current (undoManager s)) as [item |]; cbn [truthy_item].
  - destruct (String.eqb_spec item "") as [-> | Hne];
      cbn [negb orb andb fmap option_fmap option_map].
    + push_branch;
        (split; [discriminate |]); intros (item & Hi & Hne & _); simplify_eq.
    + case_bool_decide as Heq; cbn [negb].
      * split; [| reflexivity]. intros _. exists item. repeat split; [exact Hne | congruence].
      * push_branch;
          (split; [discriminate |]); intros (item' & Hi & _ & Hc); simplify_eq;
          destruct Heq; now rewrite Hc.
  - push_branch;
      (split; [discriminate |]); intros (item & Hi & _); discriminate Hi.
Qed.

(** A refused push leaves the editor as it was. *)
Lemma pushHistory_false_state {Command} (s : Scribe Command) :
  (pushHistory s).1 = false -> (pushHistory s).2 = s.
Proof.
  gate_cases; try reflexivity; push_branch; discriminate.
Qed.

(** An accepted push hands [innerHTML], as it reads while the markers are
    placed, to the undo manager, once. *)
Lemma pushHistory_true_state {Command} (s : Scribe Command) :
  (pushHistory s).1 = true ->
  undoManager (pushHistory s).2 = UndoManager_push (snapshot_html s) (undoManager s)
  /\ pushed_items (trace (pushHistory s).2) = (pushed_items (trace s) ++ [snapshot_html s])%list.
Proof.
  unfold snapshot_html.
  gate_cases; try discriminate; intros _;
    push_branch; rewrite !pushed_items_app; simpl; rewrite ?app_nil_r; split; reflexivity.
Qed.

(** An accepted push leaves the document as [removeMarkers] leaves it and
    does not touch the API object. *)
Lemma pushHistory_true_document {Command} (s : Scribe Command) :
  (pushHistory s).1 = true ->
  api (pushHistory s).2 = api s
  /\ el_innerHTML (pushHistory s).2
     = (if (rangeCount (Api_Selection (api s)) =? 0)%nat then el_innerHTML s
        else removeMarkers (Api_Selection (api s))
               (placeMarkers (Api_Selection (api s)) (el_innerHTML s))).
Proof.
  gate_cases; try discriminate; intros _; push_branch; split; reflexivity.
Qed.

(** Without a selection range, a second call right after an accepted push
    is refused exactly for content that is not empty and that equals its
    own stripped form once the trailing [<br>] is set aside. *)
Lemma pushHistory_second_call {Command} (s : Scribe Command) :
  rangeCount (Api_Selection (api s)) = 0%nat ->
  (pushHistory s).1 = true ->
  (pushHistory (pushHistory s).2).1 = false
  <-> el_innerHTML s <> ""
      /\ JsString.remove_at_end "<br>" (el_innerHTML s) = strip_markers (el_innerHTML s).
Proof.
  intros Hrange Htrue.
  destruct (pushHistory_true_state s Htrue) as [Hum _].
  destruct (pushHistory_true_document s Htrue) as [_ Hdoc].
  unfold snapshot_html in Hum. rewrite Hrange in Hum, Hdoc. simpl in Hum, Hdoc.
  rewrite pushHistory_false_iff, Hum, UndoManager_current_push.
  cbv beta iota zeta delta [getContent getHTML bind gets ret fst]. rewrite Hdoc.
  split.
  - intros (item & Hitem & Hne & Hc). injection Hitem as <-. now split.
  - intros [Hne Hc]. exists (el_innerHTML s). now repeat split.
Qed.

(** C9: with no entry at the current position [pushHistory] answers true
    and pushes, whatever the content is; the pushed item becomes the entry
    at the current position. *)
Theorem pushHistory_without_entry_pushes {Command} (s : Scribe Command) :
  UndoManager_current (undoManager s) = None ->
  (pushHistory s).1 = true
  /\ undoManager (pushHistory s).2 = UndoManager_push (snapshot_html s) (undoManager s)
  /\ UndoManager_current (undoManager (pushHistory s).2) = Some (snapshot_html s)
  /\ pushed_items (trace (pushHistory s).2)
     = (pushed_items (trace s) ++ [snapshot_html s])%list.
Proof.
  intros Hnone.
  assert ((pushHistory s).1 = true) as Htrue.
  { destruct (pushHistory s).1 eqn:Hr; [reflexivity |].
    apply pushHistory_false_iff in Hr as (item & Hitem & _). congruence. }
  destruct (pushHistory_true_state s Htrue) as [Hum Htr].
  repeat split; try assumption.
  rewrite Hum. apply UndoManager_current_push.
Qed.

Lemma pushHistory_without_entry_pushes_witness :
  UndoManager_current (undoManager (Examples.editor "" Examples.no_history)) = None
  /\ (pushHistory (Examples.editor "" Examples.no_history)).1 = true
  /\ stack (undoManager (pushHistory (Examples.editor "" Examples.no_history)).2) = [""].
Proof.
  split; [reflexivity |].
  destruct (pushHistory_without_entry_pushes (Examples.editor "" Examples.no_history) eq_refl)
    as (Htrue & Hum & _).
  split; [exact Htrue |]. rewrite Hum. reflexivity.
Defined.

(** C10: [getContent()] is [getHTML()] without one [<br>] at its very end,
    and equal to it otherwise; the gate compares this stripped content
    with the stripped entry, and an accepted push stores the unstripped
    [innerHTML], read while the markers are placed. *)
Theorem getContent_feeds_the_gate {Command} (s : Scribe Command) :
  ((exists p, (getHTML s).1 = p +:+ "<br>" /\ (getContent s).1 = p)
   \/ ((forall p, (getHTML s).1 <> p +:+ "<br>") /\ (getContent s).1 = (getHTML s).1))
  /\ (getContent s).2 = s
  /\ (forall item, UndoManager_current (undoManager s) = Some item -> item <> "" ->
        ((pushHistory s).1 = false <-> (getContent s).1 = strip_markers item))
  /\ ((pushHistory s).1 = true ->
        UndoManager_current (undoManager (pushHistory s).2)
        = Some (if (rangeCount (Api_Selection (api s)) =? 0)%nat then (getHTML s).1
                else placeMarkers (Api_Selection (api s)) (getHTML s).1)).
Proof.
  split; [| split; [reflexivity | split]].
  - apply (remove_at_end_spec "<br>" (el_innerHTML s)). discriminate.
  - intros item Hitem Hne. rewrite pushHistory_false_iff. split.
    + intros (item' & Hitem' & _ & Hc). congruence.
    + intros Hc. exists item. auto.
  - intros Htrue. destruct (pushHistory_true_state s Htrue) as [Hum _].
    rewrite Hum. apply UndoManager_current_push.
Qed.

(** C2 at its failing input: the only history entry is the present
    content, a paragraph with emphasised text. Stripping removes the
    closing tag of the emphasis, the comparison finds a difference, and the
    unchanged content is pushed a second time. *)
Theorem pushHistory_pushes_unchanged_emphasis :
  UndoManager_current (undoManager Examples.unchanged_emphasis) = Some Examples.emphasised
  /\ (getContent Examples.unchanged_emphasis).1 = Examples.emphasised
  /\ strip_markers Examples.emphasised = "<p><em>a</p>"
  /\ (pushHistory Examples.unchanged_emphasis).1 = true
  /\ stack (undoManager (pushHistory Examples.unchanged_emphasis).2)
     = [Examples.emphasised; Examples.emphasised].
Proof. vm_compute. repeat split. Qed.

(** C3 at its failing input: two calls in a row on unchanged content with
    emphasised text both answer true, and two entries are pushed. *)
Theorem pushHistory_twice_pushes_twice :
  let first := pushHistory Examples.fresh_emphasis in
  let second := pushHistory first.2 in
  first.1 = true
  /\ el_innerHTML first.2 = el_innerHTML Examples.fresh_emphasis
  /\ second.1 = true
  /\ pushed_items (trace second.2) = [Examples.emphasised; Examples.emphasised]
  /\ stack (undoManager second.2) = [Examples.emphasised; Examples.emphasised].
Proof. vm_compute. repeat split. Qed.

(** The same happens for content that ends in the bogus [<br>] of inline
    mode, and for empty content. *)
Lemma pushHistory_twice_other_contents :
  (pushHistory (pushHistory (Examples.editor "abc<br>" Examples.no_history)).2).1 = true
  /\ (pushHistory (pushHistory (Examples.editor "" Examples.no_history)).2).1 = true.
Proof. vm_compute. split; reflexivity. Qed.

(** On content without markup the second call is refused. *)
Lemma pushHistory_twice_plain_content :
  (pushHistory (pushHistory (Examples.editor "abc" Examples.no_history)).2).1 = false.
Proof. vm_compute. reflexivity. Qed.

(** ** Restoring from history *)

Lemma triggered_app (t1 t2 : list Effect) :
  triggered (t1 ++ t2) = (triggered t1 ++ triggered t2)%list.
Proof. apply omap_app. Qed.

(** C7: [restoreFromHistory] writes the snapshot as the content, then has
    a fresh selection select the markers of that content, then triggers
    content-changed, once. *)
Theorem restoreFromHistory_effects {Command} (s : Scribe Command) (historyItem : string) :
  let s' := (restoreFromHistory historyItem s).2 in
  trace s'
  = (trace s ++ [EvSetInnerHTML historyItem; EvNewSelection; EvSelectMarkers;
                 EvTrigger "content-changed"])%list
  /\ el_innerHTML (setHTML historyItem s).2 = historyItem
  /\ el_innerHTML s' = selectMarkers (Api_Selection (api s)) historyItem
  /\ triggered (trace s') = (triggered (trace s) ++ ["content-changed"])%list
  /\ undoManager s' = undoManager s.
Proof.
  cbv beta iota zeta delta [restoreFromHistory bind setHTML new_Selection
    Selection_selectMarkers trigger modify snd].
  simpl. rewrite <- !app_assoc. simpl.
  repeat split. rewrite triggered_app. reflexivity.
Qed.


(** * Further properties of the file *)

(** ** Strings: prefixes, lengths and the two replacements *)

Lemma append_cons (c : ascii) (a b : string) : String c a +:+ b = String c (a +:+ b).
Proof. reflexivity. Qed.

Lemma append_empty_r (a : string) : a +:+ "" = a.
Proof. induction a as [| c a IH]; [reflexivity |]. now rewrite append_cons, IH. Qed.

Lemma append_assoc (a b c : string) : (a +:+ b) +:+ c = a +:+ b +:+ c.
Proof. induction a as [| x a IH]; [reflexivity |]. now rewrite !append_cons, IH. Qed.

Lemma length_append (a b : string) :
  String.length (a +:+ b) = (String.length a + String.length b)%nat.
Proof. induction a as [| c a IH]; [reflexivity |]. rewrite append_cons. simpl. now rewrite IH. Qed.

Lemma prefix_cons (c d : ascii) (p s : string) :
  String.prefix (String c p) (String d s) = true <-> c = d /\ String.prefix p s = true.
Proof.
  simpl. destruct (ascii_dec c d) as [-> | Hne]; split; intros H;
    try tauto; try discriminate H.
Qed.

Lemma prefix_length (p s : string) :
  String.prefix p s = true -> (String.length p <= String.length s)%nat.
Proof.
  revert p. induction s as [| d s IH]; intros [| c p] H; simpl; try lia.
  - discriminate H.
  - apply prefix_cons in H as [_ H]. apply IH in H. lia.
Qed.

Lemma prefix_append_self (p r : string) : String.prefix p (p +:+ r) = true.
Proof.
  induction p as [| c p IH]; [now destruct r |].
  rewrite append_cons. now apply prefix_cons.
Qed.

(** A prefix test that fits in the first part of an append does not look
    at the second part. *)
Lemma prefix_append_short (p x y : string) :
  (String.length p <= String.length x)%nat ->
  String.prefix p (x +:+ y) = String.prefix p x.
Proof.
  revert p. induction x as [| d x IH]; intros [| c p] Hlen; simpl in Hlen; try lia.
  - now destruct y.
  - reflexivity.
  - rewrite append_cons. simpl. destruct (ascii_dec c d); [| reflexivity].
    apply IH. lia.
Qed.

(** A match that starts before an occurrence of [c] and holds no [c]
    itself ends before that occurrence. *)
Lemma prefix_before_char (c : ascii) (q a t : string) :
  has_char c q = false ->
  String.prefix q (a +:+ String c t) = true ->
  (String.length q <= String.length a)%nat.
Proof.
  revert q. induction a as [| a0 a IH]; intros [| q0 q] Hc H; simpl; try lia.
  - change ("" +:+ String c t) with (String c t) in H.
    apply prefix_cons in H as [-> _]. simpl in Hc.
    rewrite Ascii.eqb_refl in Hc. discriminate Hc.
  - rewrite append_cons in H. apply prefix_cons in H as [_ H].
    simpl in Hc. apply orb_false_iff in Hc as [_ Hc].
    specialize (IH q Hc H). lia.
Qed.

Lemma replace_all_from_cons_skip (pat : string) (k : nat) (c : ascii) (s : string) :
  JsString.replace_all_from pat "" (S k) (String c s) = JsString.replace_all_from pat "" k s.
Proof. reflexivity. Qed.

Lemma replace_all_from_cons (pat : string) (c : ascii) (s : string) :
  JsString.replace_all_from pat "" 0 (String c s)
  = if String.prefix pat (String c s)
    then JsString.replace_all_from pat "" (Nat.pred (String.length pat)) s
    else String c (JsString.replace_all_from pat "" 0 s).
Proof. reflexivity. Qed.

(** Removing every match shortens the string by a whole number of
    patterns. *)
Lemma replace_all_from_length (pat : string) :
  pat <> "" ->
  forall (s : string) (skip : nat),
    exists k,
      (String.length (JsString.replace_all_from pat "" skip s)
       + k * String.length pat + Nat.min skip (String.length s)
       = String.length s)%nat.
Proof.
  intros Hpat. induction s as [| c s IH]; intros skip.
  - exists 0%nat. simpl. lia.
  - destruct skip as [| skip].
    + rewrite replace_all_from_cons.
      destruct (String.prefix pat (String c s)) eqn:Hp.
      * destruct (IH (Nat.pred (String.length pat))) as [k Hk].
        apply prefix_length in Hp. simpl in Hp.
        assert (String.length pat <> 0)%nat by (destruct pat; [congruence | simpl; lia]).
        exists (S k). simpl. lia.
      * destruct (IH 0%nat) as [k Hk]. exists k. simpl. simpl in Hk. lia.
    + rewrite replace_all_from_cons_skip. destruct (IH skip) as [k Hk].
      exists k. simpl. lia.
Qed.

Lemma replace_all_length (pat s : string) :
  pat <> "" ->
  exists k, (String.length (JsString.replace_all pat "" s) + k * String.length pat
             = String.length s)%nat.
Proof.
  intros Hpat. destruct (replace_all_from_length pat Hpat s 0) as [k Hk].
  exists k. unfold JsString.replace_all. lia.
Qed.

Lemma occursb_cons (pat : string) (c : ascii) (s : string) :
  occursb pat (String c s) = String.prefix pat (String c s) || occursb pat s.
Proof. reflexivity. Qed.

Lemma replace_all_absent (pat s : string) :
  occursb pat s = false -> JsString.replace_all pat "" s = s.
Proof.
  unfold JsString.replace_all. induction s as [| c s IH]; intros H; [reflexivity |].
  rewrite occursb_cons in H. apply orb_false_iff in H as [Hp Ho].
  rewrite replace_all_from_cons, Hp. now rewrite IH.
Qed.

Lemma replace_all_present (pat s : string) :
  pat <> "" -> occursb pat s = true ->
  (String.length (JsString.replace_all pat "" s) < String.length s)%nat.
Proof.
  intros Hpat. unfold JsString.replace_all.
  assert (String.length pat <> 0)%nat as Hlen by (destruct pat; [congruence | simpl; lia]).
  induction s as [| c s IH]; intros H.
  - simpl in H. destruct pat; [congruence | discriminate H].
  - rewrite replace_all_from_cons.
    destruct (String.prefix pat (String c s)) eqn:Hp.
    + destruct (replace_all_from_length pat Hpat s (Nat.pred (String.length pat))) as [k Hk].
      apply prefix_length in Hp. simpl in Hp. simpl. lia.
    + rewrite occursb_cons, Hp in H. simpl in H. specialize (IH H). simpl. lia.
Qed.

Lemma replace_all_from_skip_append (pat x r : string) :
  JsString.replace_all_from pat "" (String.length x) (x +:+ r)
  = JsString.replace_all_from pat "" 0 r.
Proof.
  induction x as [| c x IH]; [reflexivity |].
  rewrite append_cons. simpl String.length. now rewrite replace_all_from_cons_skip.
Qed.

(** A pattern whose first character does not come back later in it cannot
    match across the start of one of its own occurrences: the matches
    before an occurrence, the occurrence, and the matches after it are
    found one after the other. *)
Lemma replace_all_from_insert (pat : string) (c : ascii) (p' : string) :
  pat = String c p' -> has_char c p' = false ->
  forall (a : string) (skip : nat) (r : string),
    (skip <= String.length a)%nat ->
    JsString.replace_all_from pat "" skip (a +:+ pat +:+ r)
    = JsString.replace_all_from pat "" skip a +:+ JsString.replace_all_from pat "" 0 r.
Proof.
  intros Hpat Hc. induction a as [| a0 a IH]; intros skip r Hskip.
  - simpl in Hskip. assert (skip = 0%nat) as -> by lia.
    change ("" +:+ pat +:+ r) with (pat +:+ r).
    change (JsString.replace_all_from pat "" 0 "") with "".
    change ("" +:+ JsString.replace_all_from pat "" 0 r)
      with (JsString.replace_all_from pat "" 0 r).
    pose proof (prefix_append_self pat r) as Hself.
    rewrite Hpat in Hself |- *. rewrite append_cons in Hself |- *.
    rewrite replace_all_from_cons, Hself. simpl Nat.pred.
    apply replace_all_from_skip_append.
  - rewrite append_cons. destruct skip as [| skip].
    + rewrite !replace_all_from_cons.
      destruct (String.prefix pat (String a0 (a +:+ pat +:+ r))) eqn:Hp.
      * assert (String.length pat <= String.length (String a0 a))%nat as Hfit.
        { rewrite Hpat in Hp |- *. apply prefix_cons in Hp as [_ Hp].
          rewrite append_cons in Hp.
          apply prefix_before_char in Hp; [simpl; lia | exact Hc]. }
        rewrite <- append_cons in Hp. rewrite prefix_append_short in Hp by exact Hfit.
        rewrite Hp. apply IH. rewrite Hpat in Hfit. simpl in Hfit.
        rewrite Hpat. simpl. lia.
      * destruct (String.prefix pat (String a0 a)) eqn:Hq.
        -- pose proof (prefix_length _ _ Hq) as Hfit.
           rewrite <- append_cons in Hp. rewrite prefix_append_short in Hp by exact Hfit.
           congruence.
        -- rewrite append_cons. f_equal. apply IH. lia.
    + rewrite !replace_all_from_cons_skip. apply IH. simpl in Hskip. lia.
Qed.

Lemma replace_all_insert (pat : string) (c : ascii) (p' a r : string) :
  pat = String c p' -> has_char c p' = false ->
  JsString.replace_all pat "" (a +:+ pat +:+ r)
  = JsString.replace_all pat "" a +:+ JsString.replace_all pat "" r.
Proof.
  intros Hpat Hc. unfold JsString.replace_all.
  apply (replace_all_from_insert pat c p' Hpat Hc). lia.
Qed.

(** ** The trailing [<br>] *)

Lemma remove_at_end_cons (pat : string) (c : ascii) (s : string) :
  JsString.remove_at_end pat (String c s)
  = if String.eqb (String c s) pat then "" else String c (JsString.remove_at_end pat s).
Proof. reflexivity. Qed.

Lemma ends_with_cons (pat : string) (c : ascii) (s : string) :
  ends_with pat (String c s) = String.eqb (String c s) pat || ends_with pat s.
Proof. reflexivity. Qed.


Lemma ends_with_append (pat c : string) : ends_with pat (c +:+ pat) = true.
Proof.
  induction c as [| a c IH].
  - change ("" +:+ pat) with pat. destruct pat as [| p0 pat]; [reflexivity |].
    rewrite ends_with_cons. now rewrite String.eqb_refl.
  - rewrite append_cons, ends_with_cons, IH. apply orb_true_r.
Qed.

Lemma remove_at_end_length (pat s : string) :
  pat <> "" ->
  (String.length (JsString.remove_at_end pat s)
   + (if ends_with pat s then String.length pat else 0)
   = String.length s)%nat.
Proof.
  intros Hpat. induction s as [| c s IH].
  - simpl. destruct pat; [congruence | reflexivity].
  - rewrite remove_at_end_cons, ends_with_cons.
    destruct (String.eqb_spec (String c s) pat) as [<- | _]; [simpl; lia |].
    simpl orb. simpl String.length. destruct (ends_with pat s); lia.
Qed.

Lemma remove_at_end_absent (pat s : string) :
  ends_with pat s = false -> JsString.remove_at_end pat s = s.
Proof.
  induction s as [| c s IH]; intros H; [reflexivity |].
  rewrite ends_with_cons in H. apply orb_false_iff in H as [He Hs].
  rewrite remove_at_end_cons, He. now rewrite IH.
Qed.

(** ** Marker stripping *)

Lemma marker_open_shape :
  exists p', marker_open = String "<" p' /\ has_char "<" p' = false
             /\ String.length marker_open = 26%nat.
Proof. eexists. repeat split. Qed.

Lemma strip_markers_fixed (h : string) :
  strip_markers h = h
  <-> occursb marker_open h = false /\ occursb "</em>" h = false.
Proof.
  unfold strip_markers. split.
  - intros Heq.
    destruct marker_open_shape as (p' & Hshape & _ & Hlen).
    assert (marker_open <> "") as Hmo by (rewrite Hshape; discriminate).
    assert ("</em>" <> "") as Hem by discriminate.
    destruct (replace_all_length marker_open h Hmo) as [k Hk].
    destruct (replace_all_length "</em>" (JsString.replace_all marker_open "" h) Hem)
      as [m Hm].
    rewrite Heq in Hm. rewrite Hlen in Hk. simpl String.length in Hm.
    assert (occursb marker_open h = false) as Ho1.
    { destruct (occursb marker_open h) eqn:Ho; [| reflexivity].
      pose proof (replace_all_present marker_open h Hmo Ho). lia. }
    split; [exact Ho1 |].
    rewrite (replace_all_absent _ _ Ho1) in Heq.
    destruct (occursb "</em>" h) eqn:Ho; [| reflexivity].
    pose proof (replace_all_present "</em>" h Hem Ho) as Hlt.
    rewrite Heq in Hlt. lia.
  - intros [Ho1 Ho2]. now rewrite (replace_all_absent _ _ Ho1), (replace_all_absent _ _ Ho2).
Qed.

Lemma strip_markers_insert (x y : string) :
  strip_markers (x +:+ marker +:+ y) = strip_markers x +:+ strip_markers y.
Proof.
  unfold strip_markers, marker.
  destruct marker_open_shape as (p' & Hshape & Hc & _).
  rewrite append_assoc.
  rewrite (replace_all_insert marker_open "<" p' x ("</em>" +:+ y) Hshape Hc).
  assert (JsString.replace_all marker_open "" ("</em>" +:+ y)
          = "</em>" +:+ JsString.replace_all marker_open "" y) as ->.
  { reflexivity. }
  apply (replace_all_insert "</em>" "<" "/em>"); reflexivity.
Qed.

(** X1: stripping leaves a string as it is exactly when the string holds
    neither the opening tag of a marker nor any closing em tag. *)
Theorem strip_markers_fixed_iff (h : string) :
  strip_markers h = h
  <-> occursb marker_open h = false /\ occursb "</em>" h = false.
Proof. apply strip_markers_fixed. Qed.

(** X2: a whole marker element is stripped where it stands: the text
    before it and the text after it are stripped as if each stood alone. *)
Theorem strip_markers_around_marker (x y : string) :
  strip_markers (x +:+ marker +:+ y) = strip_markers x +:+ strip_markers y.
Proof. apply strip_markers_insert. Qed.

(** ** The push gate, further *)

Lemma getContent_value {Command} (s : Scribe Command) :
  (getContent s).1 = JsString.remove_at_end "<br>" (el_innerHTML s).
Proof. reflexivity. Qed.

(** The stripped entry is never four characters shorter than the entry. *)
Lemma strip_markers_length (h : string) :
  exists k m, (String.length (strip_markers h) + 26 * k + 5 * m = String.length h)%nat
              /\ (k = 0%nat -> m = 0%nat -> strip_markers h = h).
Proof.
  unfold strip_markers.
  destruct marker_open_shape as (p' & Hshape & _ & Hlen).
  assert (marker_open <> "") as Hmo by (rewrite Hshape; discriminate).
  assert ("</em>" <> "") as Hem by discriminate.
  destruct (replace_all_length marker_open h Hmo) as [k Hk].
  destruct (replace_all_length "</em>" (JsString.replace_all marker_open "" h) Hem)
    as [m Hm].
  rewrite Hlen in Hk. simpl String.length in Hm.
  exists k, m. split; [lia |]. intros -> ->.
  assert (occursb marker_open h = false) as Ho1.
  { destruct (occursb marker_open h) eqn:Ho; [| reflexivity].
    pose proof (replace_all_present marker_open h Hmo Ho). lia. }
  rewrite (replace_all_absent _ _ Ho1) in Hm |- *.
  apply replace_all_absent.
  destruct (occursb "</em>" h) eqn:Ho; [| reflexivity].
  pose proof (replace_all_present "</em>" h Hem Ho). lia.
Qed.

Lemma pushHistory_same_entry {Command} (s : Scribe Command) :
  UndoManager_current (undoManager s) = Some (el_innerHTML s) ->
  (pushHistory s).1 = false
  <-> el_innerHTML s <> ""
      /\ occursb marker_open (el_innerHTML s) = false
      /\ occursb "</em>" (el_innerHTML s) = false
      /\ ends_with "<br>" (el_innerHTML s) = false.
Proof.
  intros Hentry. rewrite pushHistory_false_iff, Hentry. split.
  - intros (item & Hitem & Hne & Hc). injection Hitem as <-.
    rewrite getContent_value in Hc.
    destruct (strip_markers_length (el_innerHTML s)) as (k & m & Hlen & Hfix).
    pose proof (remove_at_end_length "<br>" (el_innerHTML s) ltac:(discriminate)) as Hrm.
    rewrite Hc in Hrm.
    destruct (ends_with "<br>" (el_innerHTML s)) eqn:He; simpl String.length in Hrm; [lia |].
    assert (strip_markers (el_innerHTML s) = el_innerHTML s) as Hs by (apply Hfix; lia).
    apply strip_markers_fixed in Hs as [Ho1 Ho2]. auto.
  - intros (Hne & Ho1 & Ho2 & He). exists (el_innerHTML s).
    split; [reflexivity | split; [exact Hne |]].
    rewrite getContent_value, (remove_at_end_absent _ _ He). symmetry.
    apply strip_markers_fixed. auto.
Qed.

(** X3: when the entry at the current position is the very HTML of the
    document, the push is refused exactly if that HTML is not empty, holds
    no marker opening tag and no closing em tag, and does not end in
    [<br>]; in every other case the unchanged document is pushed again. *)
Theorem pushHistory_unchanged_document {Command} (s : Scribe Command) :
  UndoManager_current (undoManager s) = Some (el_innerHTML s) ->
  (pushHistory s).1 = false
  <-> el_innerHTML s <> ""
      /\ occursb marker_open (el_innerHTML s) = false
      /\ occursb "</em>" (el_innerHTML s) = false
      /\ ends_with "<br>" (el_innerHTML s) = false.
Proof. apply pushHistory_same_entry. Qed.

Lemma pushHistory_unchanged_document_witness :
  UndoManager_current (undoManager MoreExamples.unchanged_paragraph)
    = Some (el_innerHTML MoreExamples.unchanged_paragraph)
  /\ (pushHistory MoreExamples.unchanged_paragraph).1 = false.
Proof.
  split; [reflexivity |].
  apply (pushHistory_unchanged_document MoreExamples.unchanged_paragraph eq_refl).
  repeat split; discriminate.
Defined.

Lemma pushHistory_refuses_marker {Command} (s : Scribe Command) (x y : string) :
  UndoManager_current (undoManager s) = Some (x +:+ marker +:+ y) ->
  el_innerHTML s = x +:+ y ->
  occursb marker_open x = false -> occursb "</em>" x = false ->
  occursb marker_open y = false -> occursb "</em>" y = false ->
  ends_with "<br>" (x +:+ y) = false ->
  (pushHistory s).1 = false /\ (pushHistory s).2 = s.
Proof.
  intros Hentry Hdoc Hx1 Hx2 Hy1 Hy2 Hbr.
  assert ((pushHistory s).1 = false) as Hfalse.
  { apply pushHistory_false_iff. exists (x +:+ marker +:+ y).
    split; [exact Hentry | split].
    - intros Hempty. apply (f_equal String.length) in Hempty.
      rewrite !length_append in Hempty. simpl in Hempty. lia.
    - rewrite getContent_value, Hdoc, (remove_at_end_absent _ _ Hbr).
      rewrite strip_markers_insert.
      assert (strip_markers x = x) as -> by (apply strip_markers_fixed; auto).
      assert (strip_markers y = y) as -> by (apply strip_markers_fixed; auto).
      reflexivity. }
  split; [exact Hfalse | now apply pushHistory_false_state].
Qed.

(** X4: a snapshot that differs from the document only by one marker
    element is not pushed again: if the text before and the text after the
    marker hold no marker opening tag and no closing em tag, and the
    document does not end in [<br>], the push is refused and the editor is
    left exactly as it was. *)
Theorem pushHistory_marker_only_difference {Command} (s : Scribe Command) (x y : string) :
  UndoManager_current (undoManager s) = Some (x +:+ marker +:+ y) ->
  el_innerHTML s = x +:+ y ->
  occursb marker_open x = false -> occursb "</em>" x = false ->
  occursb marker_open y = false -> occursb "</em>" y = false ->
  ends_with "<br>" (x +:+ y) = false ->
  (pushHistory s).1 = false /\ (pushHistory s).2 = s.
Proof. apply pushHistory_refuses_marker. Qed.

Lemma pushHistory_marker_only_difference_witness :
  (pushHistory MoreExamples.caret_snapshot).1 = false
  /\ (pushHistory MoreExamples.caret_snapshot).2 = MoreExamples.caret_snapshot.
Proof.
  apply (pushHistory_marker_only_difference MoreExamples.caret_snapshot "<p>a" "b</p>");
    reflexivity.
Defined.

(** X5: an entry that is the empty string counts as no entry: the push
    goes through whatever the document holds, an empty document included. *)
Theorem pushHistory_empty_entry_pushes {Command} (s : Scribe Command) :
  UndoManager_current (undoManager s) = Some "" ->
  (pushHistory s).1 = true
  /\ pushed_items (trace (pushHistory s).2)
     = (pushed_items (trace s) ++ [snapshot_html s])%list.
Proof.
  intros Hentry.
  assert ((pushHistory s).1 = true) as Htrue.
  { destruct (pushHistory s).1 eqn:Hr; [reflexivity |].
    apply pushHistory_false_iff in Hr as (item & Hitem & Hne & _). congruence. }
  split; [exact Htrue | now apply pushHistory_true_state].
Qed.

Lemma pushHistory_empty_entry_pushes_witness :
  (pushHistory MoreExamples.empty_entry).1 = true
  /\ pushed_items (trace (pushHistory MoreExamples.empty_entry).2) = ["<p>a</p>"].
Proof.
  apply (pushHistory_empty_entry_pushes MoreExamples.empty_entry). reflexivity.
Defined.

(** X6: the answer of [pushHistory] tells whether it pushed. A refused
    call does nothing at all; an accepted call creates one selection,
    places and removes the markers around the read when the selection has
    a range, and pushes once. No call assigns [innerHTML] or triggers an
    event. *)
Theorem pushHistory_effects {Command} (s : Scribe Command) :
  let r := pushHistory s in
  let ranged := negb (rangeCount (Api_Selection (api s)) =? 0)%nat in
  trace r.2
  = (trace s
     ++ (if r.1
         then EvNewSelection
              :: (if ranged then [EvPlaceMarkers; EvRemoveMarkers] else [])
              ++ [EvUndoPush (snapshot_html s)]
         else []))%list
  /\ (r.1 = false -> r.2 = s)
  /\ triggered (trace r.2) = triggered (trace s)
  /\ commands r.2 = commands s /\ commandPatches r.2 = commandPatches s
  /\ options r.2 = options s.
Proof.
  unfold snapshot_html.
  gate_cases; cbn [fst snd]; rewrite ?app_nil_r;
    try (repeat split; reflexivity);
    push_branch; rewrite <- ?app_assoc; simpl;
    repeat split; try discriminate;
    rewrite !triggered_app; simpl; now rewrite ?app_nil_r.
Qed.

(** ** Setting the content *)

Lemma setContent_run {Command} (s : Scribe Command) (content : string) :
  setContent content s
  = (tt, log (EvTrigger "content-changed")
           (log (EvSetInnerHTML
                   (format (htmlFormatter s)
                      (if truthy (allowsBlockElements s) then content
                       else content +:+ "<br>")))
              (set_el_innerHTML
                 (format (htmlFormatter s)
                    (if truthy (allowsBlockElements s) then content
                     else content +:+ "<br>")) s))).
Proof.
  cbv beta iota zeta delta [setContent bind gets setHTML trigger modify].
  now destruct (truthy (allowsBlockElements s)).
Qed.

(** X7: [setContent] assigns [innerHTML] once, with the formatted content
    (the content plus [<br>] when block elements are not allowed), then
    triggers content-changed once; it pushes nothing to the history and
    leaves the undo manager alone. *)
Theorem setContent_effects {Command} (s : Scribe Command) (content : string) :
  let s' := (setContent content s).2 in
  let html :=
    format (htmlFormatter s)
      (if truthy (allowsBlockElements s) then content else content +:+ "<br>") in
  trace s' = (trace s ++ [EvSetInnerHTML html; EvTrigger "content-changed"])%list
  /\ el_innerHTML s' = html
  /\ triggered (trace s') = (triggered (trace s) ++ ["content-changed"])%list
  /\ pushed_items (trace s') = pushed_items (trace s)
  /\ undoManager s' = undoManager s.
Proof.
  rewrite setContent_run. cbn [snd log set_el_innerHTML trace el_innerHTML undoManager].
  rewrite <- app_assoc. simpl.
  repeat split.
  - rewrite triggered_app. reflexivity.
  - rewrite pushed_items_app. simpl. apply app_nil_r.
Qed.





(** ** The configuration read by the constructor *)

(** X10: constructed with an options object, the editor reports for each
    of the two options the value supplied, or the default (true for block
    elements, false for debug) when the option is missing or undefined; a
    supplied null or false is kept. The target window is the one supplied
    when that is truthy, the global window otherwise. *)
Theorem Scribe_new_reads_options {Command} (el : string) (o : gmap string JSValue)
    (window : JSValue) (api0 : Api Command) (undo0 : UndoManager) :
  exists s, Scribe_new el (Some o) window api0 undo0 = inr s
    /\ allowsBlockElements s
       = (if is_undefined (js_get o "allowBlockElements") then JSBool true
          else js_get o "allowBlockElements")
    /\ isDebugModeEnabled s
       = (if is_undefined (js_get o "debug") then JSBool false else js_get o "debug")
    /\ targetWindow s
       = (if truthy (js_get o "targetWindow") then js_get o "targetWindow" else window).
Proof.
  destruct (Scribe_new_with_options el o window api0 undo0) as (s & Hs & Ha & Hd).
  assert (targetWindow s
          = js_or (js_get (defaults o [("allowBlockElements", JSBool true);
                                       ("debug", JSBool false)]) "targetWindow") window)
    as Htw by (injection Hs as <-; reflexivity).
  exists s. repeat split; try assumption.
  rewrite Htw. unfold js_or, js_get.
  rewrite defaults_other_keys; [reflexivity |].
  simpl. intros Hin. apply elem_of_cons in Hin as [Hin | Hin]; [discriminate Hin |].
  apply list_elem_of_singleton in Hin. discriminate Hin.
Qed.

(** ** Registration and lookup of commands *)

(** X11: for a name that is not inherited from [Object.prototype], a
    registration only shows under its own name, and within a tier the last
    registration under the name is the one resolved; a patch is resolved
    as long as no plugin command has the name. *)
Theorem getCommand_after_registration {Command} (inherits : string -> bool)
    (s : Scribe Command) (name other : string) (c1 c2 p : Command) :
  inherits name = false ->
  (name <> other ->
     getCommand inherits other (use (register_command name c1) s)
     = getCommand inherits other s
     /\ getCommand inherits other (use (register_patch name p) s)
        = getCommand inherits other s)
  /\ getCommand inherits name
       (use (register_command name c2) (use (register_command name c1) s))
     = CommandObject c2
  /\ (commands s !! name = None ->
        getCommand inherits name (use (register_patch name p) s) = CommandObject p
        /\ getCommand inherits name
             (use (register_patch name c2) (use (register_patch name p) s))
           = CommandObject c2).
Proof.
  intros Hown.
  unfold getCommand, js_index, use, register_command, register_patch. simpl.
  split; [| split].
  - intros Hne. now rewrite !lookup_insert_ne.
  - now rewrite lookup_insert_eq.
  - intros Hnone. rewrite Hnone, Hown. now rewrite !lookup_insert_eq.
Qed.

Lemma getCommand_after_registration_witness :
  standard_Object_prototype "bold" = false
  /\ getCommand standard_Object_prototype "bold"
       (use (register_patch "bold" "patch:bold") (Examples.editor "" Examples.no_history))
     = CommandObject "patch:bold".
Proof.
  split; [reflexivity |].
  apply (getCommand_after_registration standard_Object_prototype
           (Examples.editor "" Examples.no_history)
           "bold" "italic" "plugin:one" "plugin:two" "patch:bold" eq_refl).
  reflexivity.
Defined.

(** X19: under a name that [Object.prototype] has, and with no plugin
    command stored under it, [getCommand] returns the inherited member
    whatever patch is registered: neither the patch nor the default
    command is reached. *)
Theorem getCommand_inherited_name {Command} (inherits : string -> bool)
    (s : Scribe Command) (name : string) (p : Command) :
  inherits name = true ->
  commands s !! name = None ->
  getCommand inherits name s = PrototypeMember name
  /\ getCommand inherits name (use (register_patch name p) s) = PrototypeMember name.
Proof.
  intros Hin Hnone. split; apply getCommand_inherited; assumption.
Qed.

Lemma getCommand_inherited_name_witness :
  getCommand standard_Object_prototype "valueOf"
    (use (register_patch "valueOf" "patch:valueOf") (Examples.editor "" Examples.no_history))
  = PrototypeMember "valueOf".
Proof.
  apply (getCommand_inherited_name standard_Object_prototype
           (Examples.editor "" Examples.no_history) "valueOf" "patch:valueOf");
    reflexivity.
Defined.

(** ** Inserting at the selection *)

(** X12: [insertPlainText] runs the text through the plain-text pipeline,
    wraps it in a paragraph and runs the paragraph through the HTML
    pipeline before it replaces the range; it creates one selection,
    triggers no event and pushes no history. Without a range it throws and
    the document is untouched. *)
Theorem insertPlainText_effects {Command} (s : Scribe Command) (plainText : string) :
  (forall range,
     let r := insertPlainText (Some range) plainText s in
     r.1 = inr tt
     /\ el_innerHTML r.2
        = replaceContents range
            (format (htmlFormatter s)
               ("<p>" +:+ format (plainTextFormatter s) plainText +:+ "</p>"))
            (el_innerHTML s)
     /\ trace r.2 = (trace s ++ [EvNewSelection])%list
     /\ undoManager r.2 = undoManager s)
  /\ (let r := insertPlainText None plainText s in
      r.1 = inl TypeError
      /\ el_innerHTML r.2 = el_innerHTML s
      /\ undoManager r.2 = undoManager s).
Proof. split; [intros range |]; repeat split. Qed.

(** ** The caret fix: the first deepest child *)

(** Induction along first children. *)
Lemma Node_first_child_ind (P : Node -> Prop) :
  (forall name, P (mkNode name [])) ->
  (forall name child rest, P child -> P (mkNode name (child :: rest))) ->
  forall n, P n.
Proof.
  intros Hleaf Hdown. fix IH 1. intros [name [| child rest]].
  - apply Hleaf.
  - apply Hdown, IH.
Qed.

Lemma getFirstDeepestChild_stops (n : Node) :
  walk_stops (getFirstDeepestChild n) = true.
Proof.
  induction n as [name | name child rest IH] using Node_first_child_ind; [reflexivity |].
  simpl. destruct (String.eqb (nodeName child) "BR") eqn:Hbr; [| exact IH].
  unfold walk_stops. simpl. exact Hbr.
Qed.

Lemma getFirstDeepestChild_path (n : Node) :
  first_child_path n (getFirstDeepestChild n).
Proof.
  induction n as [name | name child rest IH] using Node_first_child_ind; [constructor |].
  simpl. destruct (String.eqb_spec (nodeName child) "BR") as [_ | Hbr]; [constructor |].
  now constructor.
Qed.

Lemma getFirstDeepestChild_fixed (n : Node) :
  walk_stops n = true -> getFirstDeepestChild n = n.
Proof.
  destruct n as [name [| child rest]]; [reflexivity |].
  unfold walk_stops. simpl. now intros ->.
Qed.

(** X13: [getFirstDeepestChild] follows first children from the node it
    is given, never stepping into a [BR], and returns the first node from
    which the walk cannot go on: a node without children or with a [BR] as
    first child. It is the only such node on the way down. *)
Theorem getFirstDeepestChild_characterised (n : Node) :
  first_child_path n (getFirstDeepestChild n)
  /\ walk_stops (getFirstDeepestChild n) = true
  /\ (forall r, first_child_path n r -> walk_stops r = true -> r = getFirstDeepestChild n).
Proof.
  split; [apply getFirstDeepestChild_path | split; [apply getFirstDeepestChild_stops |]].
  intros r Hpath. induction Hpath as [n | name child rest r Hbr Hpath IH]; intros Hstop.
  - symmetry. now apply getFirstDeepestChild_fixed.
  - simpl. apply String.eqb_neq in Hbr. rewrite Hbr. now apply IH.
Qed.

(** X14: started on a node that is not a [BR], [getFirstDeepestChild]
    never returns a [BR]. *)
Theorem getFirstDeepestChild_not_br (n : Node) :
  nodeName n <> "BR" -> nodeName (getFirstDeepestChild n) <> "BR".
Proof.
  induction n as [name | name child rest IH] using Node_first_child_ind; intros Hn;
    [exact Hn |].
  simpl. destruct (String.eqb_spec (nodeName child) "BR") as [_ | Hbr]; [exact Hn |].
  now apply IH.
Qed.

Lemma getFirstDeepestChild_not_br_witness :
  nodeName MoreExamples.nested_nodes <> "BR"
  /\ nodeName (getFirstDeepestChild MoreExamples.nested_nodes) <> "BR".
Proof.
  split; [discriminate |].
  apply (getFirstDeepestChild_not_br MoreExamples.nested_nodes). discriminate.
Defined.

(** X15: applying [getFirstDeepestChild] to its own result changes
    nothing. *)
Theorem getFirstDeepestChild_idempotent (n : Node) :
  getFirstDeepestChild (getFirstDeepestChild n) = getFirstDeepestChild n.
Proof. apply getFirstDeepestChild_fixed, getFirstDeepestChild_stops. Qed.

(** ** The pipeline, further *)

(** X16: a pipeline made of two lists of stages formats as the first list
    followed by the second, and a string that every stage leaves as it is
    comes out of the pipeline as it is. *)
Theorem format_composes (fs gs : list (string -> string)) (input : string) :
  format {| formatters := fs ++ gs |} input
  = format {| formatters := gs |} (format {| formatters := fs |} input)
  /\ (Forall (fun stage => stage input = input) fs ->
      format {| formatters := fs |} input = input).
Proof.
  split; [apply fold_left_app |].
  unfold format. cbn [formatters].
  induction fs as [| f fs IH]; intros Hall; [reflexivity |].
  apply Forall_cons in Hall as [Hf Hall]. simpl. rewrite Hf. now apply IH.
Qed.

(** ** Two pushes in a row *)

(** X17: without a selection range, a call that follows an accepted push
    at once is refused exactly if the document is not empty, holds no
    marker opening tag and no closing em tag, and does not end in [<br>].
    A document in inline mode, which ends in [<br>], or one with emphasised
    text is therefore pushed again by every call. *)
Theorem pushHistory_second_call_refused_iff {Command} (s : Scribe Command) :
  rangeCount (Api_Selection (api s)) = 0%nat ->
  (pushHistory s).1 = true ->
  (pushHistory (pushHistory s).2).1 = false
  <-> el_innerHTML s <> ""
      /\ occursb marker_open (el_innerHTML s) = false
      /\ occursb "</em>" (el_innerHTML s) = false
      /\ ends_with "<br>" (el_innerHTML s) = false.
Proof.
  intros Hrange Htrue.
  destruct (pushHistory_true_state s Htrue) as [Hum _].
  destruct (pushHistory_true_document s Htrue) as [_ Hdoc].
  unfold snapshot_html in Hum. rewrite Hrange in Hum, Hdoc. simpl in Hum, Hdoc.
  rewrite <- Hdoc. apply pushHistory_same_entry.
  rewrite Hum, Hdoc. apply UndoManager_current_push.
Qed.

Lemma pushHistory_second_call_refused_iff_witness :
  (pushHistory (pushHistory (Examples.editor "<p>ab</p>" Examples.no_history)).2).1 = false.
Proof.
  apply (pushHistory_second_call_refused_iff
           (Examples.editor "<p>ab</p>" Examples.no_history) eq_refl eq_refl).
  repeat split; discriminate.
Defined.

(** X18: with a selection whose markers go into the document as one
    marker element and come out again, in a document that holds no marker
    opening tag and no closing em tag and does not end in [<br>], a call
    that follows an accepted push at once is refused and changes nothing. *)
Theorem pushHistory_second_call_with_caret {Command} (s : Scribe Command) (x y : string) :
  rangeCount (Api_Selection (api s)) <> 0%nat ->
  el_innerHTML s = x +:+ y ->
  placeMarkers (Api_Selection (api s)) (x +:+ y) = x +:+ marker +:+ y ->
  removeMarkers (Api_Selection (api s)) (x +:+ marker +:+ y) = x +:+ y ->
  occursb marker_open x = false -> occursb "</em>" x = false ->
  occursb marker_open y = false -> occursb "</em>" y = false ->
  ends_with "<br>" (x +:+ y) = false ->
  (pushHistory s).1 = true ->
  (pushHistory (pushHistory s).2).1 = false
  /\ (pushHistory (pushHistory s).2).2 = (pushHistory s).2.
Proof.
  intros Hrange Hdoc Hplace Hremove Hx1 Hx2 Hy1 Hy2 Hbr Htrue.
  destruct (pushHistory_true_state s Htrue) as [Hum _].
  destruct (pushHistory_true_document s Htrue) as [_ Hafter].
  apply Nat.eqb_neq in Hrange.
  unfold snapshot_html in Hum. rewrite Hrange, Hdoc, Hplace in Hum.
  rewrite Hrange, Hdoc, Hplace, Hremove in Hafter.
  apply (pushHistory_refuses_marker _ x y); try assumption.
  rewrite Hum. apply UndoManager_current_push.
Qed.

Lemma pushHistory_second_call_with_caret_witness :
  (pushHistory (pushHistory MoreExamples.caret_editor).2).1 = false
  /\ (pushHistory (pushHistory MoreExamples.caret_editor).2).2
     = (pushHistory MoreExamples.caret_editor).2.
Proof.
  apply (pushHistory_second_call_with_caret MoreExamples.caret_editor "<p>a" "b</p>");
    try reflexivity. discriminate.
Defined.
